(** * memex.models.annotation: the [Annotation] model

    A shallow embedding of [src/memex/models/annotation.py].  The model
    class is a record of column values; the hybrid properties [text] and
    [target_uri] are a getter and a setter over the private columns
    [_text], [_text_rendered], [_target_uri] and [_target_uri_normalized];
    [parent_id] and [thread_root_id] are read-only properties computed from
    [references] and [id].

    The two collaborators [markdown.render] and [uri.normalize] live in
    other modules of the package; the development is parametric in them. *)

From Stdlib Require Import ZArith Ascii.
From stdpp Require Import base option list strings gmap.

Local Open Scope string_scope.
Local Open Scope Z_scope.

(** ** Python values stored in the columns *)

(** [types.URLSafeUUID]: a UUID, seen from Python as a URL-safe string. *)
Definition ident : Type := string.

(** [sa.DateTime]: a point in time, in seconds since the epoch. *)
Definition datetime : Type := Z.

(** [pg.JSONB] and [types.AnnotationSelectorJSONB]: serialisable data. *)
#[local] Unset Elimination Schemes.
Inductive json : Type :=
| JNull
| JBool (b : bool)
| JNumber (n : Z)
| JString (s : string)
| JArray (items : list json)
| JObject (members : list (string * json)).
#[local] Set Elimination Schemes.

(** ** Exceptions *)

Inductive exn : Type :=
| IndexError
| TypeError
| AttributeError.

Inductive result (A : Type) : Type :=
| Return (v : A)
| Raise (e : exn).
Arguments Return {A} v.
Arguments Raise {A} e.

#[global] Instance result_ret : MRet result := fun A v => Return v.
#[global] Instance result_bind : MBind result := fun A B f m =>
  match m with
  | Return v => f v
  | Raise e => Raise e
  end.

(** ** The model class

    Every attribute of a Python instance may hold [None], whatever the
    [nullable] flag of its column says: the flag is a constraint of the
    table, checked when the row is written.  Each field is therefore an
    [option].  The [document] relationship is resolved by the session
    from [document_id] and adds no column. *)
Record Annotation : Type := mkAnnotation {
  id : option ident;
  created : option datetime;
  updated : option datetime;
  userid : option string;
  groupid : option string;
  _text : option string;
  _text_rendered : option string;
  tags : option (list string);
  shared : option bool;
  _target_uri : option string;
  _target_uri_normalized : option string;
  target_selectors : option (list json);
  references : option (list ident);
  extra : option (gmap string json);
  deleted : option bool;
  document_id : option Z
}.

(** ** Python's truth test and subscript on an array column *)

(** [if x:] for a value that is [None] or a list. *)
Definition truthy {A : Type} (x : option (list A)) : bool :=
  match x with
  | None => false
  | Some [] => false
  | Some (_ :: _) => true
  end.

(** [x[i]]: a negative index counts from the end; an index out of range
    raises [IndexError]; [None] cannot be subscripted. *)
Definition getitem {A : Type} (x : option (list A)) (i : Z) : result A :=
  match x with
  | None => Raise TypeError
  | Some l =>
      let n := Z.of_nat (length l) in
      let j := if i <? 0 then i + n else i in
      if (j <? 0) || (n <=? j) then Raise IndexError
      else match l !! Z.to_nat j with
           | Some v => Return v
           | None => Raise IndexError
           end
  end.

(** ** Read-only properties *)

(** [parent_id]: the function falls off its end, returning [None], when
    the guard is false. *)
Definition parent_id (self : Annotation) : result (option ident) :=
  if truthy (references self)
  then r ← getitem (references self) (-1); mret (Some r)
  else mret None.

Definition thread_root_id (self : Annotation) : result (option ident) :=
  if truthy (references self)
  then r ← getitem (references self) 0; mret (Some r)
  else mret (id self).

(** ** Column declarations

    What a column declares for a row written without a value for it:
    [default] is computed by the application when the row is inserted,
    [server_default] by the database.  A callable default ([list], [dict],
    [datetime.datetime.utcnow]) and a SQL function ([now()],
    [uuid_generate_v1mc()]) read the context of the insertion. *)
Record insert_context : Type := mkContext {
  utcnow : datetime;
  now : datetime;
  uuid_generate_v1mc : ident
}.

Inductive column_default (T : Type) : Type :=
| NoDefault
| Scalar (v : T)
| Callable (f : insert_context -> T).
Arguments NoDefault {T}.
Arguments Scalar {T} v.
Arguments Callable {T} f.

Record Column (T : Type) : Type := mkColumn {
  default : column_default T;
  server_default : column_default T;
  nullable : bool
}.
Arguments mkColumn {T}.
Arguments default {T}.
Arguments server_default {T}.
Arguments nullable {T}.

Module Columns.

Definition id : Column ident :=
  mkColumn NoDefault (Callable uuid_generate_v1mc) false.
Definition created : Column datetime :=
  mkColumn (Callable utcnow) (Callable now) false.
Definition updated : Column datetime :=
  mkColumn (Callable utcnow) (Callable now) false.
Definition userid : Column string :=
  mkColumn NoDefault NoDefault false.
Definition groupid : Column string :=
  mkColumn (Scalar "__world__") (Scalar "__world__") false.
Definition _text : Column string :=
  mkColumn NoDefault NoDefault true.
Definition _text_rendered : Column string :=
  mkColumn NoDefault NoDefault true.
Definition tags : Column (list string) :=
  mkColumn NoDefault NoDefault true.
Definition shared : Column bool :=
  mkColumn (Scalar false) (Scalar false) false.
Definition _target_uri : Column string :=
  mkColumn NoDefault NoDefault true.
Definition _target_uri_normalized : Column string :=
  mkColumn NoDefault NoDefault true.
Definition target_selectors : Column (list json) :=
  mkColumn (Callable (fun _ => [])) (Scalar []) true.
Definition references : Column (list ident) :=
  mkColumn (Callable (fun _ => [])) (Scalar []) true.
Definition extra : Column (gmap string json) :=
  mkColumn (Callable (fun _ => ∅)) (Scalar ∅) false.
Definition deleted : Column bool :=
  mkColumn (Scalar false) (Scalar false) false.
Definition document_id : Column Z :=
  mkColumn NoDefault NoDefault false.

End Columns.

Definition eval_default {T : Type} (d : column_default T)
    (ctx : insert_context) : option T :=
  match d with
  | NoDefault => None
  | Scalar v => Some v
  | Callable f => Some (f ctx)
  end.

(** The value a column takes when the row is inserted: the value of the
    attribute if it has one, else the [default], else the
    [server_default], else NULL. *)
Definition on_insert {T : Type} (c : Column T) (ctx : insert_context)
    (v : option T) : option T :=
  match v with
  | Some x => Some x
  | None =>
      match eval_default (default c) ctx with
      | Some x => Some x
      | None => eval_default (server_default c) ctx
      end
  end.

Definition apply_defaults (ctx : insert_context) (self : Annotation)
    : Annotation :=
  {| id := on_insert Columns.id ctx (id self);
     created := on_insert Columns.created ctx (created self);
     updated := on_insert Columns.updated ctx (updated self);
     userid := on_insert Columns.userid ctx (userid self);
     groupid := on_insert Columns.groupid ctx (groupid self);
     _text := on_insert Columns._text ctx (_text self);
     _text_rendered :=
       on_insert Columns._text_rendered ctx (_text_rendered self);
     tags := on_insert Columns.tags ctx (tags self);
     shared := on_insert Columns.shared ctx (shared self);
     _target_uri := on_insert Columns._target_uri ctx (_target_uri self);
     _target_uri_normalized :=
       on_insert Columns._target_uri_normalized ctx
         (_target_uri_normalized self);
     target_selectors :=
       on_insert Columns.target_selectors ctx (target_selectors self);
     references := on_insert Columns.references ctx (references self);
     extra := on_insert Columns.extra ctx (extra self);
     deleted := on_insert Columns.deleted ctx (deleted self);
     document_id := on_insert Columns.document_id ctx (document_id self) |}.

(** [Annotation()]: the instance before any attribute is written. *)
Definition blank : Annotation :=
  {| id := None; created := None; updated := None; userid := None;
     groupid := None; _text := None; _text_rendered := None; tags := None;
     shared := None; _target_uri := None; _target_uri_normalized := None;
     target_selectors := None; references := None; extra := None;
     deleted := None; document_id := None |}.

(** ** Hybrid properties

    [markdown.render] and [uri.normalize] are defined in other modules of
    the package.  They are taken here as functions of the value they are
    called with, [None] included; what they compute is left open.  This
    section describes the calls that return; [Raising] below describes
    the setters when a collaborator raises. *)
Section Collaborators.

Variable markdown_render : option string -> option string.
Variable uri_normalize : option string -> option string.

Definition target_uri (self : Annotation) : option string :=
  _target_uri self.

Definition target_uri_setter (value : option string) (self : Annotation)
    : Annotation :=
  {| id := id self;
     created := created self;
     updated := updated self;
     userid := userid self;
     groupid := groupid self;
     _text := _text self;
     _text_rendered := _text_rendered self;
     tags := tags self;
     shared := shared self;
     _target_uri := value;
     _target_uri_normalized := uri_normalize value;
     target_selectors := target_selectors self;
     references := references self;
     extra := extra self;
     deleted := deleted self;
     document_id := document_id self |}.

Definition target_uri_normalized (self : Annotation) : option string :=
  _target_uri_normalized self.

Definition text (self : Annotation) : option string :=
  _text self.

Definition text_setter (value : option string) (self : Annotation)
    : Annotation :=
  {| id := id self;
     created := created self;
     updated := updated self;
     userid := userid self;
     groupid := groupid self;
     _text := value;
     _text_rendered := markdown_render value;
     tags := tags self;
     shared := shared self;
     _target_uri := _target_uri self;
     _target_uri_normalized := _target_uri_normalized self;
     target_selectors := target_selectors self;
     references := references self;
     extra := extra self;
     deleted := deleted self;
     document_id := document_id self |}.

Definition text_rendered (self : Annotation) : option string :=
  _text_rendered self.

(** ** Attribute assignment

    [self.name = value], one constructor per attribute of the class that
    can be named on the left of an assignment.  A plain column stores the
    value; [text] and [target_uri] run their setter; a property declared
    without a setter raises [AttributeError] and stores nothing.  A change
    made in place to [tags] or [extra] is the assignment of the changed
    list or mapping. *)
Inductive assignment : Type :=
| Set_id (v : option ident)
| Set_created (v : option datetime)
| Set_updated (v : option datetime)
| Set_userid (v : option string)
| Set_groupid (v : option string)
| Set__text (v : option string)
| Set__text_rendered (v : option string)
| Set_tags (v : option (list string))
| Set_shared (v : option bool)
| Set__target_uri (v : option string)
| Set__target_uri_normalized (v : option string)
| Set_target_selectors (v : option (list json))
| Set_references (v : option (list ident))
| Set_extra (v : option (gmap string json))
| Set_deleted (v : option bool)
| Set_document_id (v : option Z)
| Set_target_uri (v : option string)
| Set_target_uri_normalized (v : option string)
| Set_text (v : option string)
| Set_text_rendered (v : option string)
| Set_parent_id (v : option ident)
| Set_thread_root_id (v : option ident).

(** The name on the left of the assignment. *)
Definition attribute (w : assignment) : string :=
  match w with
  | Set_id _ => "id"
  | Set_created _ => "created"
  | Set_updated _ => "updated"
  | Set_userid _ => "userid"
  | Set_groupid _ => "groupid"
  | Set__text _ => "_text"
  | Set__text_rendered _ => "_text_rendered"
  | Set_tags _ => "tags"
  | Set_shared _ => "shared"
  | Set__target_uri _ => "_target_uri"
  | Set__target_uri_normalized _ => "_target_uri_normalized"
  | Set_target_selectors _ => "target_selectors"
  | Set_references _ => "references"
  | Set_extra _ => "extra"
  | Set_deleted _ => "deleted"
  | Set_document_id _ => "document_id"
  | Set_target_uri _ => "target_uri"
  | Set_target_uri_normalized _ => "target_uri_normalized"
  | Set_text _ => "text"
  | Set_text_rendered _ => "text_rendered"
  | Set_parent_id _ => "parent_id"
  | Set_thread_root_id _ => "thread_root_id"
  end.

(** A name with a leading underscore is private to the class. *)
Definition private (name : string) : bool :=
  match name with
  | String "_"%char _ => true
  | _ => false
  end.

Definition public (w : assignment) : bool := negb (private (attribute w)).

Definition setattr (w : assignment) (self : Annotation)
    : result Annotation :=
  match w with
  | Set_id v =>
      Return {| id := v; created := created self; updated := updated self;
        userid := userid self; groupid := groupid self;
        _text := _text self; _text_rendered := _text_rendered self;
        tags := tags self; shared := shared self;
        _target_uri := _target_uri self;
        _target_uri_normalized := _target_uri_normalized self;
        target_selectors := target_selectors self;
        references := references self; extra := extra self;
        deleted := deleted self; document_id := document_id self |}
  | Set_created v =>
      Return {| id := id self; created := v; updated := updated self;
        userid := userid self; groupid := groupid self;
        _text := _text self; _text_rendered := _text_rendered self;
        tags := tags self; shared := shared self;
        _target_uri := _target_uri self;
        _target_uri_normalized := _target_uri_normalized self;
        target_selectors := target_selectors self;
        references := references self; extra := extra self;
        deleted := deleted self; document_id := document_id self |}
  | Set_updated v =>
      Return {| id := id self; created := created self; updated := v;
        userid := userid self; groupid := groupid self;
        _text := _text self; _text_rendered := _text_rendered self;
        tags := tags self; shared := shared self;
        _target_uri := _target_uri self;
        _target_uri_normalized := _target_uri_normalized self;
        target_selectors := target_selectors self;
        references := references self; extra := extra self;
        deleted := deleted self; document_id := document_id self |}
  | Set_userid v =>
      Return {| id := id self; created := created self;
        updated := updated self; userid := v; groupid := groupid self;
        _text := _text self; _text_rendered := _text_rendered self;
        tags := tags self; shared := shared self;
        _target_uri := _target_uri self;
        _target_uri_normalized := _target_uri_normalized self;
        target_selectors := target_selectors self;
        references := references self; extra := extra self;
        deleted := deleted self; document_id := document_id self |}
  | Set_groupid v =>
      Return {| id := id self; created := created self;
        updated := updated self; userid := userid self; groupid := v;
        _text := _text self; _text_rendered := _text_rendered self;
        tags := tags self; shared := shared self;
        _target_uri := _target_uri self;
        _target_uri_normalized := _target_uri_normalized self;
        target_selectors := target_selectors self;
        references := references self; extra := extra self;
        deleted := deleted self; document_id := document_id self |}
  | Set__text v =>
      Return {| id := id self; created := created self;
        updated := updated self; userid := userid self;
        groupid := groupid self;
        _text := v; _text_rendered := _text_rendered self;
        tags := tags self; shared := shared self;
        _target_uri := _target_uri self;
        _target_uri_normalized := _target_uri_normalized self;
        target_selectors := target_selectors self;
        references := references self; extra := extra self;
        deleted := deleted self; document_id := document_id self |}
  | Set__text_rendered v =>
      Return {| id := id self; created := created self;
        updated := updated self; userid := userid self;
        groupid := groupid self;
        _text := _text self; _text_rendered := v;
        tags := tags self; shared := shared self;
        _target_uri := _target_uri self;
        _target_uri_normalized := _target_uri_normalized self;
        target_selectors := target_selectors self;
        references := references self; extra := extra self;
        deleted := deleted self; document_id := document_id self |}
  | Set_tags v =>
      Return {| id := id self; created := created self;
        updated := updated self; userid := userid self;
        groupid := groupid self;
        _text := _text self; _text_rendered := _text_rendered self;
        tags := v; shared := shared self;
        _target_uri := _target_uri self;
        _target_uri_normalized := _target_uri_normalized self;
        target_selectors := target_selectors self;
        references := references self; extra := extra self;
        deleted := deleted self; document_id := document_id self |}
  | Set_shared v =>
      Return {| id := id self; created := created self;
        updated := updated self; userid := userid self;
        groupid := groupid self;
        _text := _text self; _text_rendered := _text_rendered self;
        tags := tags self; shared := v;
        _target_uri := _target_uri self;
        _target_uri_normalized := _target_uri_normalized self;
        target_selectors := target_selectors self;
        references := references self; extra := extra self;
        deleted := deleted self; document_id := document_id self |}
  | Set__target_uri v =>
      Return {| id := id self; created := created self;
        updated := updated self; userid := userid self;
        groupid := groupid self;
        _text := _text self; _text_rendered := _text_rendered self;
        tags := tags self; shared := shared self;
        _target_uri := v;
        _target_uri_normalized := _target_uri_normalized self;
        target_selectors := target_selectors self;
        references := references self; extra := extra self;
        deleted := deleted self; document_id := document_id self |}
  | Set__target_uri_normalized v =>
      Return {| id := id self; created := created self;
        updated := updated self; userid := userid self;
        groupid := groupid self;
        _text := _text self; _text_rendered := _text_rendered self;
        tags := tags self; shared := shared self;
        _target_uri := _target_uri self;
        _target_uri_normalized := v;
        target_selectors := target_selectors self;
        references := references self; extra := extra self;
        deleted := deleted self; document_id := document_id self |}
  | Set_target_selectors v =>
      Return {| id := id self; created := created self;
        updated := updated self; userid := userid self;
        groupid := groupid self;
        _text := _text self; _text_rendered := _text_rendered self;
        tags := tags self; shared := shared self;
        _target_uri := _target_uri self;
        _target_uri_normalized := _target_uri_normalized self;
        target_selectors := v;
        references := references self; extra := extra self;
        deleted := deleted self; document_id := document_id self |}
  | Set_references v =>
      Return {| id := id self; created := created self;
        updated := updated self; userid := userid self;
        groupid := groupid self;
        _text := _text self; _text_rendered := _text_rendered self;
        tags := tags self; shared := shared self;
        _target_uri := _target_uri self;
        _target_uri_normalized := _target_uri_normalized self;
        target_selectors := target_selectors self;
        references := v; extra := extra self;
        deleted := deleted self; document_id := document_id self |}
  | Set_extra v =>
      Return {| id := id self; created := created self;
        updated := updated self; userid := userid self;
        groupid := groupid self;
        _text := _text self; _text_rendered := _text_rendered self;
        tags := tags self; shared := shared self;
        _target_uri := _target_uri self;
        _target_uri_normalized := _target_uri_normalized self;
        target_selectors := target_selectors self;
        references := references self; extra := v;
        deleted := deleted self; document_id := document_id self |}
  | Set_deleted v =>
      Return {| id := id self; created := created self;
        updated := updated self; userid := userid self;
        groupid := groupid self;
        _text := _text self; _text_rendered := _text_rendered self;
        tags := tags self; shared := shared self;
        _target_uri := _target_uri self;
        _target_uri_normalized := _target_uri_normalized self;
        target_selectors := target_selectors self;
        references := references self; extra := extra self;
        deleted := v; document_id := document_id self |}
  | Set_document_id v =>
      Return {| id := id self; created := created self;
        updated := updated self; userid := userid self;
        groupid := groupid self;
        _text := _text self; _text_rendered := _text_rendered self;
        tags := tags self; shared := shared self;
        _target_uri := _target_uri self;
        _target_uri_normalized := _target_uri_normalized self;
        target_selectors := target_selectors self;
        references := references self; extra := extra self;
        deleted := deleted self; document_id := v |}
  | Set_target_uri v => Return (target_uri_setter v self)
  | Set_text v => Return (text_setter v self)
  | Set_target_uri_normalized _ => Raise AttributeError
  | Set_text_rendered _ => Raise AttributeError
  | Set_parent_id _ => Raise AttributeError
  | Set_thread_root_id _ => Raise AttributeError
  end.

(** ** Operations on an instance

    An assignment, or the insertion of a row that the table accepts.  With
    collaborators that return, the only assignment that raises is one to
    a property without a setter; it has stored nothing, so a caller that
    catches the exception goes on with the instance as it was. *)
Inductive operation : Type :=
| Assign (w : assignment)
| Insert (ctx : insert_context).

Definition step (self : Annotation) (o : operation) : Annotation :=
  match o with
  | Assign w =>
      match setattr w self with
      | Return self' => self'
      | Raise _ => self
      end
  | Insert ctx => apply_defaults ctx self
  end.

Definition run (ops : list operation) (self : Annotation) : Annotation :=
  foldl step self ops.

Definition public_operation (o : operation) : bool :=
  match o with
  | Assign w => public w
  | Insert _ => true
  end.

(** [Annotation(name=value, ...)]: the constructor of the declarative
    base assigns each keyword argument in turn to the attribute of that
    name.  The keywords are names of attributes of the class. *)
Definition Annotation_init (kwargs : list assignment)
    : result Annotation :=
  foldl (fun acc w => self ← acc; setattr w self) (Return blank) kwargs.

End Collaborators.

(** ** Collaborators that raise

    A collaborator may raise instead of returning.  The class catches
    nothing: the exception leaves the setter at the call, after the raw
    column has been written (lines 121 and 134) and before the derived
    column is (lines 122 and 140). *)
Module Raising.

(** A call of a collaborator, with the exceptions it may raise. *)
Inductive call (E A : Type) : Type :=
| Returns (v : A)
| Raises (e : E).
Arguments Returns {E A} v.
Arguments Raises {E A} e.

Definition returns {E A : Type} (c : call E A) : bool :=
  match c with
  | Returns _ => true
  | Raises _ => false
  end.

(** How an assignment ends: normally, with an exception of the class
    itself, or with the exception of a collaborator. *)
Inductive outcome (E : Type) : Type :=
| Completed
| Failed (e : exn)
| Propagated (e : E).
Arguments Completed {E}.
Arguments Failed {E} e.
Arguments Propagated {E} e.

Section Collaborators.

Context {error : Type}.
Variable markdown_render : option string -> call error (option string).
Variable uri_normalize : option string -> call error (option string).

(** An assignment to a plain column, or to a property without a setter:
    no collaborator is called, and the collaborators given to [setattr]
    play no part. *)
Definition plain_setattr (w : assignment) (self : Annotation)
    : result Annotation :=
  setattr (fun _ => None) (fun _ => None) w self.

(** [self.name = value] for a column, inside the class. *)
Definition store (w : assignment) (self : Annotation) : Annotation :=
  match plain_setattr w self with
  | Return self' => self'
  | Raise _ => self
  end.

Definition target_uri_setter (value : option string) (self : Annotation)
    : Annotation * outcome error :=
  let self := store (Set__target_uri value) self in
  match uri_normalize value with
  | Returns normalized =>
      (store (Set__target_uri_normalized normalized) self, Completed)
  | Raises e => (self, Propagated e)
  end.

Definition text_setter (value : option string) (self : Annotation)
    : Annotation * outcome error :=
  let self := store (Set__text value) self in
  match markdown_render value with
  | Returns rendered =>
      (store (Set__text_rendered rendered) self, Completed)
  | Raises e => (self, Propagated e)
  end.

(** [self.name = value] from outside: the instance as the assignment
    leaves it, and how the assignment ended. *)
Definition setattr (w : assignment) (self : Annotation)
    : Annotation * outcome error :=
  match w with
  | Set_target_uri v => target_uri_setter v self
  | Set_text v => text_setter v self
  | _ =>
      match plain_setattr w self with
      | Return self' => (self', Completed)
      | Raise e => (self, Failed e)
      end
  end.

(** A caller that makes the assignments in turn and catches what they
    raise. *)
Definition assign_all (ws : list assignment) (self : Annotation)
    : Annotation :=
  foldl (fun s w => fst (setattr w s)) self ws.

(** The collaborator returns on the value of an assignment to [text],
    respectively to [target_uri]. *)
Definition text_returns (w : assignment) : bool :=
  match w with
  | Set_text v => returns (markdown_render v)
  | _ => true
  end.

Definition target_uri_returns (w : assignment) : bool :=
  match w with
  | Set_target_uri v => returns (uri_normalize v)
  | _ => true
  end.

(** The derived column holds what the collaborator returns on the raw
    one. *)
Definition text_synced (self : Annotation) : Prop :=
  markdown_render (text self) = Returns (text_rendered self).

Definition target_uri_synced (self : Annotation) : Prop :=
  uri_normalize (target_uri self) = Returns (target_uri_normalized self).

End Collaborators.

End Raising.

(** ** Instances used in the examples *)

(** A renderer that wraps a text in a paragraph and renders [None] as the
    empty document. *)
Definition paragraph (value : option string) : option string :=
  match value with
  | Some s => Some ("<p>" +:+ s +:+ "</p>")
  | None => Some ""
  end.

(** A normalizer that drops the empty fragment of one page, leaves other
    URIs as they are and maps [None] to the empty URI. *)
Definition strip_fragment (value : option string) : option string :=
  match value with
  | Some "http://example.com/#" => Some "http://example.com/"
  | Some s => Some s
  | None => Some ""
  end.

Definition example_context : insert_context :=
  {| utcnow := 1478217600;
     now := 1478217601;
     uuid_generate_v1mc := "GBhy1DoHEea6htPothzqZQ" |}.

(** A reply two levels down a thread. *)
Definition reply : Annotation :=
  {| id := Some "c"; created := None; updated := None;
     userid := Some "acct:foo@example.com"; groupid := None;
     _text := None; _text_rendered := None; tags := None; shared := None;
     _target_uri := None; _target_uri_normalized := None;
     target_selectors := None; references := Some ["r"; "p"];
     extra := None; deleted := None; document_id := Some 1 |}.

(** The root of that thread. *)
Definition root : Annotation :=
  {| id := Some "r"; created := None; updated := None;
     userid := Some "acct:foo@example.com"; groupid := None;
     _text := None; _text_rendered := None; tags := None; shared := None;
     _target_uri := None; _target_uri_normalized := None;
     target_selectors := None; references := Some [];
     extra := None; deleted := None; document_id := Some 1 |}.

(** A renderer that refuses [None]. *)
Definition strict_paragraph (value : option string)
    : Raising.call string (option string) :=
  match value with
  | Some s => Raising.Returns (Some ("<p>" +:+ s +:+ "</p>"))
  | None => Raising.Raises "TypeError"
  end.

(** A normalizer that refuses [None] and a URI it cannot parse. *)
Definition strict_normalize (value : option string)
    : Raising.call string (option string) :=
  match value with
  | Some "http://[" => Raising.Raises "ValueError"
  | Some s => Raising.Returns (Some s)
  | None => Raising.Raises "AttributeError"
  end.

(** Assignments made after the text and the URI have been set, some of
    which raise. *)
Definition later_assignments : list assignment :=
  [Set_tags (Some ["a"; "b"]);
   Set_text_rendered (Some "<script>");
   Set_target_uri_normalized (Some "javascript:");
   Set_shared None;
   Set_updated (Some 1478217700)].

(** What a client may do to an instance after it has set the text: edit
    the tags, try to overwrite the rendered text, have the row inserted,
    move the annotation to another page, touch the timestamp. *)
Definition edits : list operation :=
  [Assign (Set_tags (Some ["a"; "b"]));
   Assign (Set_text_rendered (Some "<script>"));
   Insert example_context;
   Assign (Set_target_uri (Some "http://example.com/#"));
   Assign (Set_target_uri_normalized (Some "javascript:"));
   Assign (Set_updated (Some 1478217700))].

(** ** Statements of the specification that are compared with the code *)

(** The defaults the specification lists for a row written without values
    for the defaulted columns. *)
Definition listed_defaults (self : Annotation) : Prop :=
  groupid self = Some "__world__" ∧
  shared self = Some false ∧
  deleted self = Some false ∧
  tags self = Some [] ∧
  target_selectors self = Some [] ∧
  references self = Some [] ∧
  extra self = Some ∅.

(** [thread_root_id] as the specification has it: the first reference, or
    the instance's own id, and in no case null. *)
Definition thread_root_as_specified (self : Annotation) : Prop :=
  (∀ r rest, references self = Some (r :: rest) →
     thread_root_id self = Return (Some r)) ∧
  (references self = Some [] → thread_root_id self = Return (id self)) ∧
  thread_root_id self ≠ Return None.

(** The invariants as the specification has them: kept by every sequence
    of public assignments once the raw attribute has been assigned. *)
Definition text_never_diverges {error : Type}
    (markdown_render uri_normalize
       : option string -> Raising.call error (option string)) : Prop :=
  ∀ (self : Annotation) (before after : list assignment)
    (v : option string),
    forallb public after = true →
    Raising.text_synced markdown_render
      (Raising.assign_all markdown_render uri_normalize
         (before ++ Set_text v :: after) self).

Definition target_uri_never_diverges {error : Type}
    (markdown_render uri_normalize
       : option string -> Raising.call error (option string)) : Prop :=
  ∀ (self : Annotation) (before after : list assignment)
    (u : option string),
    forallb public after = true →
    Raising.target_uri_synced uri_normalize
      (Raising.assign_all markdown_render uri_normalize
         (before ++ Set_target_uri u :: after) self).

(** The columns that neither setter names. *)
Definition other_columns (self : Annotation) :=
  (id self, created self, updated self, userid self, groupid self,
   tags self, shared self, target_selectors self, references self,
   extra self, deleted self, document_id self).

(** The keywords of a call of the constructor. *)
Definition keywords : list assignment :=
  [Set_userid (Some "acct:foo@example.com");
   Set_text (Some "**hi**");
   Set_target_uri (Some "http://example.com/#");
   Set_references (Some ["r"; "p"])].

(** ** Display *)

(** [%s] applied to an id: the string itself, or the name of [None]. *)
Definition format_s (v : option ident) : string :=
  match v with
  | Some s => s
  | None => "None"
  end.

Definition __repr__ (self : Annotation) : string :=
  "<Annotation " +:+ format_s (id self) +:+ ">".

(** ** Declarations read as a whole *)

(** The NOT NULL constraint of a column on the value written for it. *)
Definition not_null {T : Type} (c : Column T) (v : option T) : bool :=
  nullable c || match v with Some _ => true | None => false end.

(** The NOT NULL constraints of the table on a row. *)
Definition not_null_constraints (row : Annotation) : bool :=
  not_null Columns.id (id row) &&
  not_null Columns.created (created row) &&
  not_null Columns.updated (updated row) &&
  not_null Columns.userid (userid row) &&
  not_null Columns.groupid (groupid row) &&
  not_null Columns._text (_text row) &&
  not_null Columns._text_rendered (_text_rendered row) &&
  not_null Columns.tags (tags row) &&
  not_null Columns.shared (shared row) &&
  not_null Columns._target_uri (_target_uri row) &&
  not_null Columns._target_uri_normalized (_target_uri_normalized row) &&
  not_null Columns.target_selectors (target_selectors row) &&
  not_null Columns.references (references row) &&
  not_null Columns.extra (extra row) &&
  not_null Columns.deleted (deleted row) &&
  not_null Columns.document_id (document_id row).

(** * Properties *)

(** ** Subscripts under the guard *)

Lemma getitem_last {A : Type} (l : list A) :
  getitem (Some l) (-1) =
  match last l with Some r => Return r | None => Raise IndexError end.
Proof.
  unfold getitem. rewrite last_lookup.
  destruct l as [|a l]; [reflexivity|].
  cbn [length Nat.pred].
  replace (-1 <? 0) with true by reflexivity.
  assert (Hj : Z.to_nat (-1 + Z.of_nat (S (length l))) = length l) by lia.
  rewrite Hj.
  assert (Hlt : (-1 + Z.of_nat (S (length l)) <? 0) = false)
    by (apply Z.ltb_ge; lia).
  assert (Hle : (Z.of_nat (S (length l))
                   <=? -1 + Z.of_nat (S (length l))) = false)
    by (apply Z.leb_gt; lia).
  rewrite Hlt, Hle. cbn [orb].
  destruct ((a :: l) !! length l); reflexivity.
Qed.

Lemma getitem_first {A : Type} (l : list A) :
  getitem (Some l) 0 =
  match head l with Some r => Return r | None => Raise IndexError end.
Proof.
  unfold getitem. destruct l as [|a l]; [reflexivity|].
  replace (0 <? 0) with false by reflexivity.
  assert (Hle : (Z.of_nat (length (a :: l)) <=? 0) = false)
    by (apply Z.leb_gt; cbn [length]; lia).
  rewrite Hle. reflexivity.
Qed.

(** Without the guard the subscripts do raise. *)
Lemma getitem_unguarded :
  getitem (A := ident) None 0 = Raise TypeError ∧
  getitem (A := ident) None (-1) = Raise TypeError ∧
  getitem (A := ident) (Some []) 0 = Raise IndexError ∧
  getitem (A := ident) (Some []) (-1) = Raise IndexError.
Proof. repeat split. Qed.

Lemma truthy_cons {A : Type} (x : option (list A)) :
  truthy x = true ↔ ∃ r rest, x = Some (r :: rest).
Proof.
  split.
  - destruct x as [[|r rest]|]; cbn; try discriminate. eauto.
  - intros (r & rest & ->). reflexivity.
Qed.

Lemma parent_id_eq (self : Annotation) :
  parent_id self =
  match references self with
  | Some l => Return (last l)
  | None => Return None
  end.
Proof.
  unfold parent_id. destruct (references self) as [l|] eqn:E; [|reflexivity].
  destruct l as [|a l]; [reflexivity|].
  cbn [truthy]. rewrite getitem_last.
  destruct (last (a :: l)) eqn:El; [reflexivity|].
  apply last_None in El. discriminate.
Qed.

Lemma thread_root_id_eq (self : Annotation) :
  thread_root_id self =
  match references self with
  | Some (r :: _) => Return (Some r)
  | _ => Return (id self)
  end.
Proof.
  unfold thread_root_id. destruct (references self) as [[|a l]|]; reflexivity.
Qed.

(** C4 (as amended): [thread_root_id] returns the first element of
    [references] when [references] is not empty and the instance's own
    [id] when it is empty; the result is not null as soon as the instance
    has an [id]. *)
Theorem thread_root_id_spec (self : Annotation) :
  (∀ r rest, references self = Some (r :: rest) →
     thread_root_id self = Return (Some r)) ∧
  (references self = Some [] → thread_root_id self = Return (id self)) ∧
  (id self ≠ None → thread_root_id self ≠ Return None).
Proof.
  rewrite thread_root_id_eq. split; [|split].
  - intros r rest ->. reflexivity.
  - intros ->. reflexivity.
  - intros Hid. destruct (references self) as [[|r rest]|]; congruence.
Qed.

(** C4 (as stated) fails on an instance that has no [id] yet: the root of
    a thread before its row is inserted. *)
Lemma thread_root_id_null_before_insert :
  ¬ thread_root_as_specified blank.
Proof. intros (_ & _ & H). apply H. reflexivity. Qed.

Lemma thread_root_id_spec_witness :
  (references reply = Some ["r"; "p"] ∧
   thread_root_id reply = Return (Some "r")) ∧
  (references root = Some [] ∧ thread_root_id root = Return (id root)) ∧
  (id root ≠ None ∧ thread_root_id root ≠ Return None).
Proof.
  destruct (thread_root_id_spec reply) as (Hfirst & _ & _).
  destruct (thread_root_id_spec root) as (_ & Hown & Hnonnull).
  split; [|split]; split.
  - reflexivity.
  - apply (Hfirst "r" ["p"]). reflexivity.
  - reflexivity.
  - apply Hown. reflexivity.
  - discriminate.
  - apply Hnonnull. discriminate.
Defined.

(** C5: [parent_id] returns the last element of [references] when
    [references] is not empty, and null when it is empty. *)
Theorem parent_id_spec (self : Annotation) :
  (∀ l, references self = Some l → l ≠ [] →
     ∃ r, last l = Some r ∧ parent_id self = Return (Some r)) ∧
  (references self = Some [] → parent_id self = Return None).
Proof.
  rewrite parent_id_eq. split.
  - intros l -> Hne. destruct (last l) as [r|] eqn:El.
    + eauto.
    + apply last_None in El. contradiction.
  - intros ->. reflexivity.
Qed.

Lemma parent_id_spec_witness :
  (references reply = Some ["r"; "p"] ∧ ["r"; "p"] ≠ [] ∧
   ∃ r, last ["r"; "p"] = Some r ∧ parent_id reply = Return (Some r)) ∧
  (references root = Some [] ∧ parent_id root = Return None).
Proof.
  destruct (parent_id_spec reply) as (Hlast & _).
  destruct (parent_id_spec root) as (_ & Hnone).
  split; split.
  - reflexivity.
  - split; [discriminate|]. apply Hlast; [reflexivity | discriminate].
  - reflexivity.
  - apply Hnone. reflexivity.
Defined.

(** C9: [parent_id] and [thread_root_id] return for every state of
    [references]; the subscripts are evaluated only when [references] is
    truthy, where they are in range; [None] is handled as the empty list
    is. *)
Theorem properties_total (self : Annotation) :
  (∃ v, parent_id self = Return v) ∧
  (∃ v, thread_root_id self = Return v) ∧
  (truthy (references self) = true →
     ∃ r0 r1, getitem (references self) 0 = Return r0 ∧
              getitem (references self) (-1) = Return r1 ∧
              thread_root_id self = Return (Some r0) ∧
              parent_id self = Return (Some r1)) ∧
  (truthy (references self) = false →
     parent_id self = Return None ∧
     thread_root_id self = Return (id self)) ∧
  (references self = None →
     parent_id self = Return None ∧
     thread_root_id self = Return (id self)).
Proof.
  split; [|split; [|split; [|split]]].
  - rewrite parent_id_eq. destruct (references self); eauto.
  - rewrite thread_root_id_eq. destruct (references self) as [[|? ?]|]; eauto.
  - intros Ht. apply truthy_cons in Ht as (r & rest & E).
    unfold parent_id, thread_root_id. rewrite E. cbn [truthy].
    rewrite getitem_first, getitem_last. cbn [head].
    destruct (last (r :: rest)) as [r1|] eqn:El.
    + exists r, r1. repeat split.
    + apply last_None in El. discriminate.
  - intros Hf. unfold parent_id, thread_root_id. rewrite Hf. split; reflexivity.
  - intros Hn. unfold parent_id, thread_root_id. rewrite Hn. split; reflexivity.
Qed.

Lemma properties_total_witness :
  (truthy (references reply) = true ∧
   thread_root_id reply = Return (Some "r") ∧
   parent_id reply = Return (Some "p")) ∧
  (truthy (references root) = false ∧
   parent_id root = Return None ∧
   thread_root_id root = Return (Some "r")) ∧
  (references blank = None ∧
   parent_id blank = Return None ∧
   thread_root_id blank = Return (id blank)).
Proof.
  destruct (properties_total reply) as (_ & _ & Hguard & _ & _).
  destruct (properties_total root) as (_ & _ & _ & Helse & _).
  destruct (properties_total blank) as (_ & _ & _ & _ & Hnone).
  split; [|split].
  - split; [reflexivity|].
    destruct (Hguard eq_refl) as (r0 & r1 & H0 & H1 & Hroot & Hparent).
    injection H0 as <-. injection H1 as <-. split; assumption.
  - split; [reflexivity|]. apply (Helse eq_refl).
  - split; [reflexivity|]. apply (Hnone eq_refl).
Defined.

(** ** Defaults *)

Lemma on_insert_no_default {T : Type} (c : Column T) (ctx : insert_context)
    (v : option T) :
  default c = NoDefault → server_default c = NoDefault →
  on_insert c ctx v = v.
Proof.
  intros Hd Hs. unfold on_insert. rewrite Hd, Hs. destruct v; reflexivity.
Qed.

Lemma on_insert_set {T : Type} (c : Column T) (ctx : insert_context) (x : T) :
  on_insert c ctx (Some x) = Some x.
Proof. reflexivity. Qed.

(** Before the row is inserted no default has been applied. *)
Lemma blank_unset :
  groupid blank = None ∧ shared blank = None ∧ deleted blank = None ∧
  tags blank = None ∧ target_selectors blank = None ∧
  references blank = None ∧ extra blank = None.
Proof. repeat split. Qed.

(** C3 (as amended): a row inserted without values for the defaulted
    columns has [groupid = "__world__"], [shared] and [deleted] false,
    [target_selectors] and [references] the empty list and [extra] the
    empty mapping; [tags] declares no default and is null. *)
Theorem insert_defaults (ctx : insert_context) (self : Annotation) :
  groupid self = None → shared self = None → deleted self = None →
  tags self = None → target_selectors self = None →
  references self = None → extra self = None →
  groupid (apply_defaults ctx self) = Some "__world__" ∧
  shared (apply_defaults ctx self) = Some false ∧
  deleted (apply_defaults ctx self) = Some false ∧
  target_selectors (apply_defaults ctx self) = Some [] ∧
  references (apply_defaults ctx self) = Some [] ∧
  extra (apply_defaults ctx self) = Some ∅ ∧
  tags (apply_defaults ctx self) = None.
Proof.
  intros Hg Hs Hd Ht Hsel Hr He. cbn.
  rewrite Hg, Hs, Hd, Ht, Hsel, Hr, He. repeat split.
Qed.

Lemma insert_defaults_witness :
  groupid (apply_defaults example_context blank) = Some "__world__" ∧
  shared (apply_defaults example_context blank) = Some false ∧
  deleted (apply_defaults example_context blank) = Some false ∧
  target_selectors (apply_defaults example_context blank) = Some [] ∧
  references (apply_defaults example_context blank) = Some [] ∧
  extra (apply_defaults example_context blank) = Some ∅ ∧
  tags (apply_defaults example_context blank) = None.
Proof. apply (insert_defaults example_context blank); reflexivity. Defined.

(** C3 (as stated) fails on [tags]: the column has neither a [default]
    nor a [server_default], so the inserted row has no tag list. *)
Lemma tags_default_is_not_the_empty_list :
  ¬ listed_defaults (apply_defaults example_context blank).
Proof. intros (_ & _ & _ & Htags & _). discriminate Htags. Qed.

(** ** The setters *)

Section SetterProperties.

Variable markdown_render : option string -> option string.
Variable uri_normalize : option string -> option string.


(** C1: after [text] is assigned a string [v], [text] reads [v] and
    [text_rendered] reads [markdown.render(v)], whatever was done to the
    instance before, earlier assignments to [text] included. *)
Theorem text_setter_spec (self : Annotation) (earlier : list operation)
    (v : string) :
  text (step markdown_render uri_normalize
          (run markdown_render uri_normalize earlier self)
          (Assign (Set_text (Some v)))) = Some v ∧
  text_rendered (step markdown_render uri_normalize
          (run markdown_render uri_normalize earlier self)
          (Assign (Set_text (Some v)))) = markdown_render (Some v).
Proof. split; reflexivity. Qed.

(** C2: after [target_uri] is assigned a string [u], [target_uri] reads
    [u] and [target_uri_normalized] reads [uri.normalize(u)]. *)
Theorem target_uri_setter_spec (self : Annotation)
    (earlier : list operation) (u : string) :
  target_uri (step markdown_render uri_normalize
          (run markdown_render uri_normalize earlier self)
          (Assign (Set_target_uri (Some u)))) = Some u ∧
  target_uri_normalized (step markdown_render uri_normalize
          (run markdown_render uri_normalize earlier self)
          (Assign (Set_target_uri (Some u)))) = uri_normalize (Some u).
Proof. split; reflexivity. Qed.

(** C8: the [text] setter changes [_text] and [_text_rendered] only, the
    [target_uri] setter [_target_uri] and [_target_uri_normalized] only;
    [updated] and every other column keep their value. *)
Theorem setters_frame (self : Annotation) (v : option string) :
  (other_columns (text_setter markdown_render v self)
     = other_columns self ∧
   _target_uri (text_setter markdown_render v self) = _target_uri self ∧
   _target_uri_normalized (text_setter markdown_render v self)
     = _target_uri_normalized self) ∧
  (other_columns (target_uri_setter uri_normalize v self)
     = other_columns self ∧
   _text (target_uri_setter uri_normalize v self) = _text self ∧
   _text_rendered (target_uri_setter uri_normalize v self)
     = _text_rendered self).
Proof. repeat split. Qed.

(** C10: the setters call their collaborator for every value, [None]
    included: the derived column holds what the collaborator returned
    for [None], which is null only if the collaborator returned null. *)
Theorem setters_call_collaborator_on_none (self : Annotation) :
  (∀ v, text_rendered (text_setter markdown_render v self)
          = markdown_render v) ∧
  (∀ v, target_uri_normalized (target_uri_setter uri_normalize v self)
          = uri_normalize v) ∧
  (text (text_setter markdown_render None self) = None ∧
   text_rendered (text_setter markdown_render None self)
     = markdown_render None) ∧
  (target_uri (target_uri_setter uri_normalize None self) = None ∧
   target_uri_normalized (target_uri_setter uri_normalize None self)
     = uri_normalize None) ∧
  (markdown_render None ≠ None →
     text_rendered (text_setter markdown_render None self) ≠ None) ∧
  (uri_normalize None ≠ None →
     target_uri_normalized (target_uri_setter uri_normalize None self)
       ≠ None).
Proof.
  split; [|split; [|split; [|split; [|split]]]];
    try (intros v; reflexivity); try (split; reflexivity);
    intros Hnn; exact Hnn.
Qed.

(** *** Operations in sequence *)

Lemma run_app (ops1 ops2 : list operation) (self : Annotation) :
  run markdown_render uri_normalize (ops1 ++ ops2) self =
  run markdown_render uri_normalize ops2
    (run markdown_render uri_normalize ops1 self).
Proof. unfold run. apply foldl_app. Qed.

(** A public operation other than an assignment to [text] writes neither
    [_text] nor [_text_rendered]. *)
Lemma step_text_columns (self : Annotation) (o : operation) :
  public_operation o = true →
  (∀ v, o ≠ Assign (Set_text v)) →
  _text (step markdown_render uri_normalize self o) = _text self ∧
  _text_rendered (step markdown_render uri_normalize self o)
    = _text_rendered self.
Proof.
  intros Hpub Hne. destruct o as [w|ctx].
  - destruct w; try discriminate Hpub; try (split; reflexivity).
    exfalso. eapply Hne. reflexivity.
  - cbn. split; apply on_insert_no_default; reflexivity.
Qed.

End SetterProperties.

Lemma setters_call_collaborator_on_none_witness :
  (paragraph None ≠ None ∧
   text_rendered (text_setter paragraph None reply) = Some "") ∧
  (strip_fragment None ≠ None ∧
   target_uri_normalized (target_uri_setter strip_fragment None reply)
     ≠ None).
Proof.
  destruct (setters_call_collaborator_on_none paragraph strip_fragment reply)
    as (_ & _ & (_ & Hr) & _ & _ & Hn).
  split; split.
  - discriminate.
  - exact Hr.
  - discriminate.
  - apply Hn. discriminate.
Defined.

(** The state the example reaches. *)
Example edits_result :
  let self := run paragraph strip_fragment
                (Assign (Set_text (Some "**hi**")) :: edits) blank in
  text self = Some "**hi**" ∧
  text_rendered self = Some "<p>**hi**</p>" ∧
  target_uri self = Some "http://example.com/#" ∧
  target_uri_normalized self = Some "http://example.com/" ∧
  tags self = Some ["a"; "b"] ∧
  groupid self = Some "__world__".
Proof. repeat split. Qed.

(** The constructor goes through the setters. *)
Example init_with_text :
  Annotation_init paragraph strip_fragment
    [Set_userid (Some "acct:foo@example.com"); Set_text (Some "hi")]
  = Return (text_setter paragraph (Some "hi")
              {| id := None; created := None; updated := None;
                 userid := Some "acct:foo@example.com"; groupid := None;
                 _text := None; _text_rendered := None; tags := None;
                 shared := None; _target_uri := None;
                 _target_uri_normalized := None; target_selectors := None;
                 references := None; extra := None; deleted := None;
                 document_id := None |}).
Proof. reflexivity. Qed.

(** A keyword argument that names a read-only property makes the
    constructor raise. *)
Example init_with_text_rendered :
  Annotation_init paragraph strip_fragment
    [Set_text (Some "hi"); Set_text_rendered (Some "<script>")]
  = Raise AttributeError.
Proof. reflexivity. Qed.

(** ** Threads *)

(** X1: an annotation has no parent exactly when [references] is empty or
    unset, and then it is the root of its own thread. *)
Theorem parent_id_none_iff_root (self : Annotation) :
  (parent_id self = Return None ↔
   references self = None ∨ references self = Some []) ∧
  (parent_id self = Return None →
   thread_root_id self = Return (id self)).
Proof.
  rewrite parent_id_eq, thread_root_id_eq.
  destruct (references self) as [l|] eqn:E.
  - destruct (last l) as [r|] eqn:El.
    + split.
      * split; [discriminate|].
        intros [Hn | Hs]; [discriminate|].
        injection Hs as ->. discriminate.
      * discriminate.
    + apply last_None in El. subst l. split; [|reflexivity].
      split; [right|]; reflexivity.
  - split; [|reflexivity]. split; [left|]; reflexivity.
Qed.

Lemma parent_id_none_iff_root_witness :
  parent_id root = Return None ∧
  thread_root_id root = Return (id root).
Proof.
  destruct (parent_id_none_iff_root root) as [Hiff Hroot].
  assert (Hp : parent_id root = Return None)
    by (apply Hiff; right; reflexivity).
  split; [exact Hp | exact (Hroot Hp)].
Defined.

(** X2: a reply whose [references] are its parent's followed by the
    parent's id has that parent as [parent_id] and the parent's thread root
    as [thread_root_id]. *)
Theorem reply_shares_thread_root (parent child : Annotation)
    (pid : ident) (ancestors : list ident) :
  id parent = Some pid →
  references parent = Some ancestors ∨
    (references parent = None ∧ ancestors = []) →
  references child = Some (ancestors ++ [pid])%list →
  parent_id child = Return (Some pid) ∧
  thread_root_id child = thread_root_id parent.
Proof.
  intros Hid Hanc Hchild.
  rewrite parent_id_eq, !thread_root_id_eq, Hchild, last_snoc, Hid.
  split; [reflexivity|].
  destruct Hanc as [-> | [-> ->]].
  - destruct ancestors as [|a rest]; reflexivity.
  - reflexivity.
Qed.

Lemma reply_shares_thread_root_witness :
  parent_id reply = Return (Some "p") ∧
  thread_root_id reply = Return (Some "r").
Proof.
  exact (reply_shares_thread_root
           {| id := Some "p"; created := None; updated := None;
              userid := None; groupid := None; _text := None;
              _text_rendered := None; tags := None; shared := None;
              _target_uri := None; _target_uri_normalized := None;
              target_selectors := None; references := Some ["r"];
              extra := None; deleted := None; document_id := None |}
           reply "p" ["r"] eq_refl (or_introl eq_refl) eq_refl).
Defined.

(** X3: inserting the row does not change [parent_id], and the inserted
    row always has a thread root: [thread_root_id] is not null, and it is
    what it was before whenever the instance already had an [id]. *)
Theorem thread_after_insert (ctx : insert_context) (self : Annotation) :
  parent_id (apply_defaults ctx self) = parent_id self ∧
  thread_root_id (apply_defaults ctx self) ≠ Return None ∧
  (id self ≠ None →
   thread_root_id (apply_defaults ctx self) = thread_root_id self).
Proof.
  rewrite !parent_id_eq, !thread_root_id_eq. cbn.
  destruct (references self) as [[|r rest]|], (id self) as [i|]; cbn;
    repeat split; try discriminate; try reflexivity;
    intros Hid; contradiction.
Qed.

Lemma thread_after_insert_witness :
  id root ≠ None ∧
  thread_root_id (apply_defaults example_context root) = thread_root_id root.
Proof.
  split; [discriminate|].
  apply (thread_after_insert example_context root). discriminate.
Defined.

(** ** Insertion *)

(** X5: the inserted row meets the NOT NULL constraints of the table
    exactly when [userid] and [document_id] were given: every other
    column that is not nullable declares a default. *)
Theorem not_null_after_insert (ctx : insert_context) (self : Annotation) :
  not_null_constraints (apply_defaults ctx self) = true ↔
  userid self ≠ None ∧ document_id self ≠ None.
Proof.
  unfold not_null_constraints. cbn.
  destruct (id self), (created self), (updated self), (groupid self),
    (shared self), (extra self), (deleted self); cbn;
    destruct (userid self), (document_id self); cbn;
    (split; [intros H; try discriminate H; split; discriminate
            | intros [Hu Hd]; try reflexivity; congruence]).
Qed.

(** The constraints do fail on a row that lacks them. *)
Lemma not_null_needs_userid :
  not_null_constraints (apply_defaults example_context blank) = false.
Proof. reflexivity. Qed.

(** ** Assignments as a whole *)

Section AssignmentProperties.

Variable markdown_render : option string -> option string.
Variable uri_normalize : option string -> option string.


Lemma step_assign_comm (w1 w2 : assignment) (self : Annotation) :
  public w1 = true → public w2 = true →
  attribute w1 ≠ attribute w2 →
  step markdown_render uri_normalize
    (step markdown_render uri_normalize self (Assign w1)) (Assign w2)
  = step markdown_render uri_normalize
      (step markdown_render uri_normalize self (Assign w2)) (Assign w1).
Proof.
  intros Hp1 Hp2 Hne.
  destruct w1; try discriminate Hp1; destruct w2; try discriminate Hp2;
    try reflexivity; exfalso; apply Hne; reflexivity.
Qed.

Lemma run_assign_permutation (ws ws' : list assignment) :
  ws ≡ₚ ws' →
  Forall (λ w, public w = true) ws →
  NoDup (attribute <$> ws) →
  ∀ self,
    run markdown_render uri_normalize (Assign <$> ws) self
    = run markdown_render uri_normalize (Assign <$> ws') self.
Proof.
  induction 1 as [|x l l' Hperm IH|x y l|l l' l'' H1 IH1 H2 IH2];
    intros Hpub Hnd self.
  - reflexivity.
  - apply Forall_cons in Hpub as [_ Hpub].
    rewrite fmap_cons in Hnd. apply NoDup_cons in Hnd as [_ Hnd].
    cbn. apply (IH Hpub Hnd).
  - apply Forall_cons in Hpub as [Hy Hpub].
    apply Forall_cons in Hpub as [Hx _].
    rewrite !fmap_cons in Hnd. apply NoDup_cons in Hnd as [Hyx _].
    cbn. f_equal. apply step_assign_comm; [exact Hy | exact Hx |].
    intros Heq. apply Hyx. rewrite Heq. left.
  - rewrite (IH1 Hpub Hnd). apply IH2.
    + rewrite <- H1. exact Hpub.
    + rewrite <- H1. exact Hnd.
Qed.

(** X8: assignments to different public attributes do not interfere:
    made in any order, a batch of them leaves the same instance. *)
Theorem assignments_in_any_order (ws ws' : list assignment)
    (self : Annotation) :
  ws ≡ₚ ws' →
  Forall (λ w, public w = true) ws →
  NoDup (attribute <$> ws) →
  run markdown_render uri_normalize (Assign <$> ws) self
  = run markdown_render uri_normalize (Assign <$> ws') self.
Proof. intros Hperm Hpub Hnd. apply run_assign_permutation; assumption. Qed.

(** With a private name in the batch the order matters. *)
Lemma private_assignment_order (u v : option string) :
  markdown_render u ≠ None → v = None →
  run markdown_render uri_normalize
    [Assign (Set_text u); Assign (Set__text_rendered v)] blank
  ≠ run markdown_render uri_normalize
      [Assign (Set__text_rendered v); Assign (Set_text u)] blank.
Proof.
  intros Hr -> Heq. apply Hr.
  apply (f_equal _text_rendered) in Heq. cbn in Heq. symmetry. exact Heq.
Qed.

End AssignmentProperties.

(** ** The constructor *)

Section ConstructorProperties.

Variable markdown_render : option string -> option string.
Variable uri_normalize : option string -> option string.

Lemma assign_all_raise (e : exn) (kwargs : list assignment) :
  foldl (fun acc w =>
           self ← acc; setattr markdown_render uri_normalize w self)
    (Raise e) kwargs = Raise e.
Proof. induction kwargs as [|w kwargs IH]; [reflexivity | exact IH]. Qed.

Lemma assign_all_return (kwargs : list assignment) (s a : Annotation) :
  foldl (fun acc w =>
           self ← acc; setattr markdown_render uri_normalize w self)
    (Return s) kwargs = Return a →
  a = run markdown_render uri_normalize (Assign <$> kwargs) s.
Proof.
  revert s. induction kwargs as [|w kwargs IH]; intros s Hret.
  - injection Hret as <-. reflexivity.
  - cbn in Hret. cbn. unfold mbind, result_bind in Hret.
    destruct (setattr markdown_render uri_normalize w s) as [s'|e] eqn:Ew.
    + apply (IH s' Hret).
    + rewrite assign_all_raise in Hret. discriminate Hret.
Qed.

Lemma init_returns_run (kwargs : list assignment) (a : Annotation) :
  Annotation_init markdown_render uri_normalize kwargs = Return a →
  a = run markdown_render uri_normalize (Assign <$> kwargs) blank.
Proof. apply assign_all_return. Qed.

Lemma run_without_text (ws : list assignment) (s : Annotation) :
  Forall (λ w, public w = true) ws →
  (∀ v, Set_text v ∉ ws) →
  _text (run markdown_render uri_normalize (Assign <$> ws) s) = _text s ∧
  _text_rendered (run markdown_render uri_normalize (Assign <$> ws) s)
    = _text_rendered s.
Proof.
  intros Hpub. revert s.
  induction Hpub as [|w ws Hw Hpub IH]; intros s Hno; [split; reflexivity|].
  cbn.
  destruct (IH (step markdown_render uri_normalize s (Assign w))) as [Ht Hr].
  { intros v Hin. apply (Hno v). right. exact Hin. }
  destruct (step_text_columns markdown_render uri_normalize s (Assign w) Hw)
    as [Ht' Hr'].
  { intros v Heq. injection Heq as ->. apply (Hno v). left. }
  split; [rewrite <- Ht' | rewrite <- Hr']; assumption.
Qed.

Lemma run_assign_last (ws : list assignment) (w : assignment)
    (s : Annotation) :
  Forall (λ w, public w = true) ws →
  NoDup (attribute <$> ws) →
  w ∈ ws →
  ∃ rest,
    run markdown_render uri_normalize (Assign <$> ws) s
    = step markdown_render uri_normalize
        (run markdown_render uri_normalize (Assign <$> rest) s) (Assign w).
Proof.
  intros Hpub Hnd Hin.
  apply elem_of_Permutation in Hin as [rest Hperm].
  exists rest.
  rewrite (run_assign_permutation markdown_render uri_normalize
             ws (rest ++ [w])%list).
  - rewrite fmap_app, run_app. reflexivity.
  - rewrite Hperm. apply Permutation_cons_append.
  - exact Hpub.
  - exact Hnd.
Qed.

(** X11: an instance built from public keywords with different names has
    the [text] it was given and the render of that text, the [target_uri]
    it was given and the normal form of that URI; built without a [text]
    keyword it has neither a text nor a rendered text. *)
Theorem Annotation_init_derived (kwargs : list assignment)
    (a : Annotation) :
  Annotation_init markdown_render uri_normalize kwargs = Return a →
  Forall (λ w, public w = true) kwargs →
  NoDup (attribute <$> kwargs) →
  (∀ v, Set_text v ∈ kwargs →
     text a = v ∧ text_rendered a = markdown_render v) ∧
  (∀ u, Set_target_uri u ∈ kwargs →
     target_uri a = u ∧ target_uri_normalized a = uri_normalize u) ∧
  ((∀ v, Set_text v ∉ kwargs) →
     text a = None ∧ text_rendered a = None).
Proof.
  intros Hret Hpub Hnd. apply init_returns_run in Hret. subst a.
  split; [|split].
  - intros v Hin.
    destruct (run_assign_last kwargs (Set_text v) blank Hpub Hnd Hin)
      as [rest ->].
    split; reflexivity.
  - intros u Hin.
    destruct (run_assign_last kwargs (Set_target_uri u) blank Hpub Hnd Hin)
      as [rest ->].
    split; reflexivity.
  - intros Hno. apply (run_without_text kwargs blank Hpub Hno).
Qed.

End ConstructorProperties.


Lemma keywords_public : Forall (λ w, public w = true) keywords.
Proof. repeat constructor. Qed.

Lemma keywords_distinct : NoDup (attribute <$> keywords).
Proof. compute_done. Qed.

Lemma assignments_in_any_order_witness :
  run paragraph strip_fragment (Assign <$> keywords) blank
  = run paragraph strip_fragment (Assign <$> reverse keywords) blank.
Proof.
  apply assignments_in_any_order.
  - symmetry. apply reverse_Permutation.
  - exact keywords_public.
  - exact keywords_distinct.
Defined.

Lemma Annotation_init_derived_witness :
  Annotation_init paragraph strip_fragment keywords
    = Return (run paragraph strip_fragment (Assign <$> keywords) blank) ∧
  text (run paragraph strip_fragment (Assign <$> keywords) blank)
    = Some "**hi**" ∧
  text_rendered (run paragraph strip_fragment (Assign <$> keywords) blank)
    = Some "<p>**hi**</p>".
Proof.
  split; [reflexivity|].
  assert (Hinit : Annotation_init paragraph strip_fragment keywords
            = Return (run paragraph strip_fragment (Assign <$> keywords)
                        blank)) by reflexivity.
  destruct (Annotation_init_derived paragraph strip_fragment keywords _
              Hinit keywords_public keywords_distinct)
    as (Htext & _ & _).
  apply (Htext (Some "**hi**")). right. left.
Defined.

(** ** Display *)

Lemma append_char_inj (c : ascii) (x y : string) :
  x +:+ String c "" = y +:+ String c "" → x = y.
Proof.
  revert y. induction x as [|a x IH]; intros [|b y] Heq; cbn in Heq.
  - reflexivity.
  - injection Heq as _ Heq. destruct y; discriminate Heq.
  - injection Heq as _ Heq. destruct x; discriminate Heq.
  - injection Heq as -> Heq. f_equal. apply IH. exact Heq.
Qed.

(** X12: the display string tells apart any two instances that have
    different ids, and depends on nothing but the id. *)
Theorem repr_identifies (a b : Annotation) (x y : ident) :
  id a = Some x → id b = Some y →
  (__repr__ a = __repr__ b ↔ x = y).
Proof.
  intros Ha Hb. unfold __repr__. rewrite Ha, Hb. cbn. split.
  - intros Heq. injection Heq as Heq. apply (append_char_inj _ _ _ Heq).
  - intros ->. reflexivity.
Qed.

Lemma repr_identifies_witness :
  __repr__ reply = __repr__ (text_setter paragraph (Some "hi") reply) ∧
  __repr__ reply ≠ __repr__ root.
Proof.
  split.
  - apply (repr_identifies reply (text_setter paragraph (Some "hi") reply)
             "c" "c" eq_refl eq_refl). reflexivity.
  - intros Heq.
    apply (repr_identifies reply root "c" "r" eq_refl eq_refl) in Heq.
    discriminate Heq.
Defined.

(** An instance without an id is displayed as one whose id is the word
    [None]. *)
Lemma repr_without_id :
  __repr__ blank = "<Annotation None>" ∧
  __repr__ blank = __repr__ (step paragraph strip_fragment blank
                               (Assign (Set_id (Some "None")))).
Proof. split; reflexivity. Qed.

(** ** Setters whose collaborator raises *)

Section RaisingProperties.

Context {error : Type}.
Variable markdown_render : option string -> Raising.call error (option string).
Variable uri_normalize : option string -> Raising.call error (option string).

(** The attributes other than [text] and [target_uri] are assigned as in
    the first part, whatever the collaborators. *)
Lemma plain_setattr_eq (f g : option string -> option string)
    (w : assignment) (self : Annotation) :
  (∀ v, w ≠ Set_text v) → (∀ v, w ≠ Set_target_uri v) →
  Raising.plain_setattr w self = setattr f g w self.
Proof.
  intros Ht Hu. destruct w; try reflexivity.
  - exfalso. eapply Hu. reflexivity.
  - exfalso. eapply Ht. reflexivity.
Qed.

(** With collaborators that return, the two descriptions of an assignment
    agree. *)
Lemma setattr_returning (f g : option string -> option string)
    (w : assignment) (self : Annotation) :
  Raising.setattr (error := error)
    (fun v => Raising.Returns (f v)) (fun v => Raising.Returns (g v)) w self
  = match setattr f g w self with
    | Return self' => (self', Raising.Completed)
    | Raise e => (self, Raising.Failed e)
    end.
Proof. destruct w; reflexivity. Qed.

(** What a setter leaves behind when its collaborator raises: the raw
    column is written, the derived column is not. *)
Lemma text_setter_raises (value : option string) (self : Annotation)
    (e : error) :
  markdown_render value = Raising.Raises e →
  snd (Raising.text_setter markdown_render value self)
    = Raising.Propagated e ∧
  text (fst (Raising.text_setter markdown_render value self)) = value ∧
  text_rendered (fst (Raising.text_setter markdown_render value self))
    = text_rendered self.
Proof.
  intros He. unfold Raising.text_setter. rewrite He. repeat split.
Qed.

Lemma target_uri_setter_raises (value : option string) (self : Annotation)
    (e : error) :
  uri_normalize value = Raising.Raises e →
  snd (Raising.target_uri_setter uri_normalize value self)
    = Raising.Propagated e ∧
  target_uri (fst (Raising.target_uri_setter uri_normalize value self))
    = value ∧
  target_uri_normalized
    (fst (Raising.target_uri_setter uri_normalize value self))
    = target_uri_normalized self.
Proof.
  intros He. unfold Raising.target_uri_setter. rewrite He. repeat split.
Qed.

Lemma assign_all_app (ws1 ws2 : list assignment) (self : Annotation) :
  Raising.assign_all markdown_render uri_normalize (ws1 ++ ws2) self
  = Raising.assign_all markdown_render uri_normalize ws2
      (Raising.assign_all markdown_render uri_normalize ws1 self).
Proof. unfold Raising.assign_all. apply foldl_app. Qed.

(** A public assignment other than one to [text] writes neither [_text]
    nor [_text_rendered], whether it raises or not. *)
Lemma setattr_text_columns (w : assignment) (self : Annotation) :
  public w = true →
  (∀ v, w ≠ Set_text v) →
  _text (fst (Raising.setattr markdown_render uri_normalize w self))
    = _text self ∧
  _text_rendered (fst (Raising.setattr markdown_render uri_normalize w self))
    = _text_rendered self.
Proof.
  intros Hpub Hne.
  destruct w; try discriminate Hpub; try (split; reflexivity).
  - cbn. unfold Raising.target_uri_setter.
    destruct (uri_normalize v); split; reflexivity.
  - exfalso. eapply Hne. reflexivity.
Qed.

Lemma setattr_target_uri_columns (w : assignment) (self : Annotation) :
  public w = true →
  (∀ v, w ≠ Set_target_uri v) →
  _target_uri (fst (Raising.setattr markdown_render uri_normalize w self))
    = _target_uri self ∧
  _target_uri_normalized
    (fst (Raising.setattr markdown_render uri_normalize w self))
    = _target_uri_normalized self.
Proof.
  intros Hpub Hne.
  destruct w; try discriminate Hpub; try (split; reflexivity).
  - exfalso. eapply Hne. reflexivity.
  - cbn. unfold Raising.text_setter.
    destruct (markdown_render v); split; reflexivity.
Qed.

Lemma is_set_text (w : assignment) :
  {v | w = Set_text v} + {∀ v, w ≠ Set_text v}.
Proof.
  destruct w; try (right; intros ?; discriminate).
  left. eexists. reflexivity.
Qed.

Lemma is_set_target_uri (w : assignment) :
  {v | w = Set_target_uri v} + {∀ v, w ≠ Set_target_uri v}.
Proof.
  destruct w; try (right; intros ?; discriminate).
  left. eexists. reflexivity.
Qed.

Lemma setattr_text_synced (w : assignment) (self : Annotation) :
  public w = true →
  Raising.text_returns markdown_render w = true →
  Raising.text_synced markdown_render self →
  Raising.text_synced markdown_render
    (fst (Raising.setattr markdown_render uri_normalize w self)).
Proof.
  intros Hpub Hret Hinv. destruct (is_set_text w) as [[v ->]|Hne].
  - cbn in Hret. unfold Raising.text_synced. cbn.
    unfold Raising.text_setter.
    destruct (markdown_render v) as [r|e] eqn:Er; [|discriminate Hret].
    cbn. exact Er.
  - destruct (setattr_text_columns w self Hpub Hne) as [Ht Hr].
    unfold Raising.text_synced, text_rendered, text in *.
    rewrite Ht, Hr. exact Hinv.
Qed.

Lemma setattr_target_uri_synced (w : assignment) (self : Annotation) :
  public w = true →
  Raising.target_uri_returns uri_normalize w = true →
  Raising.target_uri_synced uri_normalize self →
  Raising.target_uri_synced uri_normalize
    (fst (Raising.setattr markdown_render uri_normalize w self)).
Proof.
  intros Hpub Hret Hinv. destruct (is_set_target_uri w) as [[v ->]|Hne].
  - cbn in Hret. unfold Raising.target_uri_synced. cbn.
    unfold Raising.target_uri_setter.
    destruct (uri_normalize v) as [r|e] eqn:Er; [|discriminate Hret].
    cbn. exact Er.
  - destruct (setattr_target_uri_columns w self Hpub Hne) as [Ht Hr].
    unfold Raising.target_uri_synced, target_uri_normalized, target_uri in *.
    rewrite Ht, Hr. exact Hinv.
Qed.

Lemma assign_all_text_synced (ws : list assignment) (self : Annotation) :
  forallb public ws = true →
  forallb (Raising.text_returns markdown_render) ws = true →
  Raising.text_synced markdown_render self →
  Raising.text_synced markdown_render
    (Raising.assign_all markdown_render uri_normalize ws self).
Proof.
  revert self. induction ws as [|w ws IH]; intros self Hpub Hret Hinv.
  - exact Hinv.
  - cbn in Hpub, Hret.
    apply andb_prop in Hpub as [Hw Hpub].
    apply andb_prop in Hret as [Hrw Hret].
    apply (IH _ Hpub Hret). apply setattr_text_synced; assumption.
Qed.

Lemma assign_all_target_uri_synced (ws : list assignment)
    (self : Annotation) :
  forallb public ws = true →
  forallb (Raising.target_uri_returns uri_normalize) ws = true →
  Raising.target_uri_synced uri_normalize self →
  Raising.target_uri_synced uri_normalize
    (Raising.assign_all markdown_render uri_normalize ws self).
Proof.
  revert self. induction ws as [|w ws IH]; intros self Hpub Hret Hinv.
  - exact Hinv.
  - cbn in Hpub, Hret.
    apply andb_prop in Hpub as [Hw Hpub].
    apply andb_prop in Hret as [Hrw Hret].
    apply (IH _ Hpub Hret). apply setattr_target_uri_synced; assumption.
Qed.

Lemma text_assigned_synced (v : option string) (self : Annotation) :
  Raising.returns (markdown_render v) = true →
  Raising.text_synced markdown_render
    (fst (Raising.setattr markdown_render uri_normalize (Set_text v) self)).
Proof.
  intros Hv. unfold Raising.text_synced. cbn. unfold Raising.text_setter.
  destruct (markdown_render v) as [r|e] eqn:Er; [|discriminate Hv].
  cbn. exact Er.
Qed.

Lemma target_uri_assigned_synced (u : option string) (self : Annotation) :
  Raising.returns (uri_normalize u) = true →
  Raising.target_uri_synced uri_normalize
    (fst (Raising.setattr markdown_render uri_normalize
            (Set_target_uri u) self)).
Proof.
  intros Hu. unfold Raising.target_uri_synced. cbn.
  unfold Raising.target_uri_setter.
  destruct (uri_normalize u) as [r|e] eqn:Er; [|discriminate Hu].
  cbn. exact Er.
Qed.

(** C6 (as amended): once [text] has been assigned with a call of
    [markdown.render] that returned, [text_rendered] is the render of the
    current [text] after any sequence of public assignments in which the
    later assignments to [text] return as well; an assignment to
    [text_rendered] raises [AttributeError] and stores nothing; a public
    assignment that changes [text_rendered] is an assignment to [text]. *)
Theorem text_rendered_follows_returning_text :
  (∀ (self : Annotation) (before after : list assignment)
     (v : option string),
     Raising.returns (markdown_render v) = true →
     forallb public after = true →
     forallb (Raising.text_returns markdown_render) after = true →
     Raising.text_synced markdown_render
       (Raising.assign_all markdown_render uri_normalize
          (before ++ Set_text v :: after) self)) ∧
  (∀ s x, Raising.setattr markdown_render uri_normalize
            (Set_text_rendered x) s
          = (s, Raising.Failed AttributeError)) ∧
  (∀ s w, public w = true →
     text_rendered (fst (Raising.setattr markdown_render uri_normalize w s))
       ≠ text_rendered s →
     ∃ x, w = Set_text x).
Proof.
  split; [|split].
  - intros self before after v Hv Hpub Hret.
    rewrite assign_all_app.
    apply (assign_all_text_synced after _ Hpub Hret).
    apply text_assigned_synced. exact Hv.
  - reflexivity.
  - intros s w Hw Hchg. destruct (is_set_text w) as [[x ->]|Hne].
    + eauto.
    + destruct (setattr_text_columns w s Hw Hne) as [_ Hr]. contradiction.
Qed.

(** C7 (as amended): once [target_uri] has been assigned with a call of
    [uri.normalize] that returned, [target_uri_normalized] is the normal
    form of the current [target_uri] after any sequence of public
    assignments in which the later assignments to [target_uri] return as
    well; an assignment to [target_uri_normalized] raises
    [AttributeError] and stores nothing; a public assignment that changes
    [target_uri_normalized] is an assignment to [target_uri]. *)
Theorem target_uri_normalized_follows_returning_target_uri :
  (∀ (self : Annotation) (before after : list assignment)
     (u : option string),
     Raising.returns (uri_normalize u) = true →
     forallb public after = true →
     forallb (Raising.target_uri_returns uri_normalize) after = true →
     Raising.target_uri_synced uri_normalize
       (Raising.assign_all markdown_render uri_normalize
          (before ++ Set_target_uri u :: after) self)) ∧
  (∀ s x, Raising.setattr markdown_render uri_normalize
            (Set_target_uri_normalized x) s
          = (s, Raising.Failed AttributeError)) ∧
  (∀ s w, public w = true →
     target_uri_normalized
       (fst (Raising.setattr markdown_render uri_normalize w s))
       ≠ target_uri_normalized s →
     ∃ x, w = Set_target_uri x).
Proof.
  split; [|split].
  - intros self before after u Hu Hpub Hret.
    rewrite assign_all_app.
    apply (assign_all_target_uri_synced after _ Hpub Hret).
    apply target_uri_assigned_synced. exact Hu.
  - reflexivity.
  - intros s w Hw Hchg. destruct (is_set_target_uri w) as [[x ->]|Hne].
    + eauto.
    + destruct (setattr_target_uri_columns w s Hw Hne) as [_ Hr].
      contradiction.
Qed.

End RaisingProperties.

Lemma text_rendered_follows_returning_text_witness :
  Raising.returns (strict_paragraph (Some "**hi**")) = true ∧
  forallb public
    (Set_target_uri (Some "http://[") :: later_assignments) = true ∧
  forallb (Raising.text_returns strict_paragraph)
    (Set_target_uri (Some "http://[") :: later_assignments) = true ∧
  Raising.text_synced strict_paragraph
    (Raising.assign_all strict_paragraph strict_normalize
       ([Set__text_rendered (Some "stale"); Set_text None]
          ++ Set_text (Some "**hi**")
          :: Set_target_uri (Some "http://[") :: later_assignments)
       blank).
Proof.
  split; [reflexivity|]. split; [reflexivity|]. split; [reflexivity|].
  exact (proj1 (text_rendered_follows_returning_text
                  strict_paragraph strict_normalize)
           blank [Set__text_rendered (Some "stale"); Set_text None]
           (Set_target_uri (Some "http://[") :: later_assignments)
           (Some "**hi**") eq_refl eq_refl eq_refl).
Defined.

(** C6 (as stated) fails when [markdown.render] raises: the setter has
    written [_text] before the call, so after the failed assignment
    [text] is the new value and [text_rendered] the render of the old
    one. *)
Lemma raising_render_leaves_text_rendered_stale :
  ¬ text_never_diverges strict_paragraph strict_normalize.
Proof.
  intros Hclaim.
  specialize (Hclaim blank [] [Set_text None] (Some "old") eq_refl).
  discriminate Hclaim.
Qed.

(** The state that the failed assignment leaves. *)
Example stale_text_rendered :
  let self := Raising.assign_all strict_paragraph strict_normalize
                [Set_text (Some "old"); Set_text None] blank in
  text self = None ∧ text_rendered self = Some "<p>old</p>" ∧
  Raising.setattr strict_paragraph strict_normalize (Set_text None)
    (Raising.assign_all strict_paragraph strict_normalize
       [Set_text (Some "old")] blank)
  = (self, Raising.Propagated "TypeError").
Proof. repeat split. Qed.

Lemma target_uri_normalized_follows_returning_target_uri_witness :
  Raising.returns (strict_normalize (Some "http://example.com/")) = true ∧
  forallb public (Set_text None :: later_assignments) = true ∧
  forallb (Raising.target_uri_returns strict_normalize)
    (Set_text None :: later_assignments) = true ∧
  Raising.target_uri_synced strict_normalize
    (Raising.assign_all strict_paragraph strict_normalize
       ([Set__target_uri_normalized (Some "stale");
         Set_target_uri (Some "http://[")]
          ++ Set_target_uri (Some "http://example.com/")
          :: Set_text None :: later_assignments)
       blank).
Proof.
  split; [reflexivity|]. split; [reflexivity|]. split; [reflexivity|].
  exact (proj1 (target_uri_normalized_follows_returning_target_uri
                  strict_paragraph strict_normalize)
           blank
           [Set__target_uri_normalized (Some "stale");
            Set_target_uri (Some "http://[")]
           (Set_text None :: later_assignments)
           (Some "http://example.com/") eq_refl eq_refl eq_refl).
Defined.

(** C7 (as stated) fails when [uri.normalize] raises: the setter has
    written [_target_uri] before the call, so after the failed assignment
    [target_uri] is the new value and [target_uri_normalized] the normal
    form of the old one. *)
Lemma raising_normalize_leaves_normalized_stale :
  ¬ target_uri_never_diverges strict_paragraph strict_normalize.
Proof.
  intros Hclaim.
  specialize (Hclaim blank [] [Set_target_uri (Some "http://[")]
                (Some "http://example.com/") eq_refl).
  discriminate Hclaim.
Qed.

Example stale_target_uri_normalized :
  let self := Raising.assign_all strict_paragraph strict_normalize
                [Set_target_uri (Some "http://example.com/");
                 Set_target_uri (Some "http://[")] blank in
  target_uri self = Some "http://[" ∧
  target_uri_normalized self = Some "http://example.com/" ∧
  Raising.setattr strict_paragraph strict_normalize
    (Set_target_uri (Some "http://["))
    (Raising.assign_all strict_paragraph strict_normalize
       [Set_target_uri (Some "http://example.com/")] blank)
  = (self, Raising.Propagated "ValueError").
Proof. repeat split. Qed.
